(** * Supervisor: network-manager payloads and Home Assistant backup/restore

    A shallow embedding of

    - [supervisor/dbus/payloads/generate.py]
      ([get_connection_from_interface], [interface_update_payload]) and
    - [supervisor/homeassistant/module.py]
      ([HomeAssistant._hardware_events], [HomeAssistant.backup],
      [HomeAssistant.restore]),

    followed by the properties of the specification that concern them.

    Python values are modelled as follows: [str] and [bytes] as [string]
    (a [str] is held as its UTF-8 bytes, so [str.encode] is the identity),
    [int] as [Z] or [N], [None]-able attributes as [option], [dict] as an
    insertion-ordered association list, exceptions as a sum type, and the
    objects that the code mutates through several names as cells of a store. *)

From Stdlib Require Import ZArith NArith Ascii String.
From Stdlib Require Import DecimalPos DecimalN DecimalString HexadecimalN HexadecimalString.
From stdpp Require Import base option list gmap strings.

Local Open Scope string_scope.
Local Open Scope list_scope.

(** ** Python: strings *)

Module PyStr.

(** [s.startswith(p)] *)
Definition startswith (s p : string) : bool := String.prefix p s.

(** [sep.join(l)] *)
Definition join (sep : string) (l : list string) : string := String.concat sep l.

(** [str(n)] for a non-negative [int] *)
Definition str_of_N (n : N) : string :=
  DecimalString.NilZero.string_of_uint (N.to_uint n).

(** [str(z)] for an [int] *)
Definition str_of_Z (z : Z) : string :=
  DecimalString.NilZero.string_of_int (Z.to_int z).

(** ['%x' % n]: lower-case hexadecimal without leading zeros *)
Definition hex_of_N (n : N) : string :=
  HexadecimalString.NilZero.string_of_uint (N.to_hex_uint n).

(** [f"{b:02x}"]: one byte as two lower-case hexadecimal digits *)
Definition hex2 (b : N) : string :=
  hex_of_N (b / 16) +:+ hex_of_N (b mod 16).

(** [s.split(sep)] for a one-character separator: the pieces between
    the occurrences of [sep]; never empty. *)
Fixpoint split (sep : ascii) (s : string) : list string :=
  match s with
  | EmptyString => [EmptyString]
  | String c s' =>
      if Ascii.eqb c sep then EmptyString :: split sep s'
      else match split sep s' with
           | piece :: rest => String c piece :: rest
           | [] => [String c EmptyString]
           end
  end.

(** No character of [s] is [sep]. *)
Fixpoint free_of (sep : ascii) (s : string) : bool :=
  match s with
  | EmptyString => true
  | String c s' => negb (Ascii.eqb c sep) && free_of sep s'
  end.

(** [int(s)] for the decimal text of a non-negative integer; a text
    that is not one raises [ValueError], rendered as [None]. *)
Definition int (s : string) : option Z :=
  match DecimalString.NilZero.uint_of_string s with
  | Some d => Some (Z.of_N (N.of_uint d))
  | None => None
  end.

(** [b.hex(",")]: the bytes as two-digit hexadecimal, separated by [","];
    the empty text for no bytes. *)
Definition bytes_hex (b : string) : string :=
  join "," (map (fun c => hex2 (N_of_ascii c)) (list_ascii_of_string b)).

End PyStr.

(** ** Python: exceptions and effects *)

Module Py.

(** The exception classes that the two modules name or can meet. *)
Inductive exn : Type :=
| HomeAssistantWSError
| TarError
| OSError
| AttributeError
| ValueError
| AwesomeVersionException
| OtherException (name : string).

Definition exn_eqb (a b : exn) : bool :=
  match a, b with
  | HomeAssistantWSError, HomeAssistantWSError
  | TarError, TarError
  | OSError, OSError
  | AttributeError, AttributeError
  | ValueError, ValueError
  | AwesomeVersionException, AwesomeVersionException => true
  | OtherException x, OtherException y => String.eqb x y
  | _, _ => false
  end.

(** How a call ends: with a value or with a raised exception. *)
Inductive outcome (A : Type) : Type :=
| Ret (a : A)
| Raise (e : exn).
Arguments Ret {A} a.
Arguments Raise {A} e.

(** A computation over a state [S], the state being kept when it raises. *)
Definition M (S A : Type) : Type := S -> outcome A * S.

Definition ret {S A} (a : A) : M S A := fun s => (Ret a, s).
Definition raise {S A} (e : exn) : M S A := fun s => (Raise e, s).
Definition bind {S A B} (m : M S A) (k : A -> M S B) : M S B :=
  fun s => match m s with
           | (Ret a, s') => k a s'
           | (Raise e, s') => (Raise e, s')
           end.
Definition get {S} : M S S := fun s => (Ret s, s).
Definition modify {S} (f : S -> S) : M S unit := fun s => (Ret tt, f s).

(** [try: body  except <classes>: handler] *)
Definition try_except {S} (body : M S unit) (classes : list exn)
    (handler : exn -> M S unit) : M S unit :=
  fun s => match body s with
           | (Ret tt, s') => (Ret tt, s')
           | (Raise e, s') =>
               if existsb (exn_eqb e) classes then handler e s'
               else (Raise e, s')
           end.

(** [try: body  finally: final]: [final] always runs; an exception of
    [final] wins, otherwise the outcome of [body] stands. *)
Definition try_finally {S A} (body : M S A) (final : M S unit) : M S A :=
  fun s => match body s with
           | (r, s') =>
               match final s' with
               | (Ret tt, s'') => (r, s'')
               | (Raise e, s'') => (Raise e, s'')
               end
           end.

(** Lifting of an [Optional] that the code dereferences. *)
Definition attr_of {S A} (o : option A) : M S A :=
  match o with
  | Some a => ret a
  | None => raise AttributeError
  end.

End Py.

Import Py.

Notation "'let*' x ':=' m 'in' k" := (Py.bind m (fun x => k))
  (at level 10, x name, m at level 200, k at level 200, only parsing).
Notation "m '>>' k" := (Py.bind m (fun _ => k))
  (at level 65, right associativity, only parsing).

(** ** Python: [dict] and the D-Bus [Variant] *)

Module PyDict.

(** An insertion-ordered [dict] with [str] keys. *)
Definition dict (V : Type) : Type := list (string * V).


(** [d.get(k)] *)
Fixpoint getitem {V} (d : dict V) (k : string) : option V :=
  match d with
  | [] => None
  | (k', v') :: d' => if String.eqb k' k then Some v' else getitem d' k
  end.

(** [k in d] *)
Definition contains {V} (d : dict V) (k : string) : bool :=
  match getitem d k with Some _ => true | None => false end.

End PyDict.

Import PyDict.

(** The values that the payload holds. [Variant sig v] is
    [dbus_next.signature.Variant(sig, v)]; [Ref l] is a reference to the
    [dict] object in cell [l] of the store. *)
Unset Elimination Schemes.
Inductive PyValue : Type :=
| VStr (s : string)
| VInt (z : Z)
| VBytes (b : string)
| VList (l : list PyValue)
| VDict (d : list (string * PyValue))
| Variant (signature : string) (value : PyValue)
| Ref (l : nat).
Set Elimination Schemes.

(** ** [ipaddress]: the texts of addresses *)

Module IPAddress.

(** [IPv4Address] and [IPv6Address] hold the address as an [int]. *)
Definition IPv4Address : Type := N.
Definition IPv6Address : Type := N.

(** [IPv4Interface] / [IPv6Interface]: an address and a prefix length. *)
Record IPInterface : Type := { ip : N; prefixlen : N }.

Definition octet (a : N) (i : N) : N := N.land (N.shiftr a (8 * i)) 255.

(** [str(IPv4Address)]: dotted decimal *)
Definition str_ipv4 (a : IPv4Address) : string :=
  PyStr.join "." (map (fun i => PyStr.str_of_N (octet a i)) [3; 2; 1; 0]%N).

(** [socket.htonl] on a little-endian host: the four bytes reversed. *)
Definition htonl (x : N) : N :=
  N.lor (N.lor (N.shiftl (octet x 0) 24) (N.shiftl (octet x 1) 16))
        (N.lor (N.shiftl (octet x 2) 8) (octet x 3)).

(** [IPv6Address.packed]: the sixteen bytes, most significant first *)
Definition packed (a : IPv6Address) : string :=
  string_of_list_ascii
    (map (fun i => ascii_of_N (octet a i))
         [15; 14; 13; 12; 11; 10; 9; 8; 7; 6; 5; 4; 3; 2; 1; 0]%N).

(** The eight 16-bit groups of an address, most significant first. *)
Definition hextet (a : IPv6Address) (i : N) : N :=
  N.land (N.shiftr a (16 * (7 - i))) 65535.

Definition hextets (a : IPv6Address) : list string :=
  map (fun i => PyStr.hex_of_N (hextet a i)) [0; 1; 2; 3; 4; 5; 6; 7]%N.

(** The scan of [_compress_hextets] for the longest run of ["0"] groups:
    the first of the longest runs wins; [-1] stands for no run. *)
Record scan : Type := {
  best_doublecolon_start : Z;
  best_doublecolon_len : Z;
  doublecolon_start : Z;
  doublecolon_len : Z
}.

Definition scan_step (st : scan) (index : Z) (hextet : string) : scan :=
  if String.eqb hextet "0" then
    let len := (doublecolon_len st + 1)%Z in
    let start := if (doublecolon_start st =? -1)%Z then index
                 else doublecolon_start st in
    if (len >? best_doublecolon_len st)%Z then
      {| best_doublecolon_start := start; best_doublecolon_len := len;
         doublecolon_start := start; doublecolon_len := len |}
    else
      {| best_doublecolon_start := best_doublecolon_start st;
         best_doublecolon_len := best_doublecolon_len st;
         doublecolon_start := start; doublecolon_len := len |}
  else
    {| best_doublecolon_start := best_doublecolon_start st;
       best_doublecolon_len := best_doublecolon_len st;
       doublecolon_start := -1; doublecolon_len := 0 |}.

Fixpoint scan_from (st : scan) (index : Z) (hs : list string) : scan :=
  match hs with
  | [] => st
  | h :: hs' => scan_from (scan_step st index h) (index + 1)%Z hs'
  end.

(** [IPv6Address._compress_hextets] *)
Definition _compress_hextets (hs : list string) : list string :=
  let st := scan_from {| best_doublecolon_start := -1; best_doublecolon_len := 0;
                         doublecolon_start := -1; doublecolon_len := 0 |} 0%Z hs in
  if (best_doublecolon_len st >? 1)%Z then
    let best_doublecolon_end :=
      (best_doublecolon_start st + best_doublecolon_len st)%Z in
    let hs1 := if (best_doublecolon_end =? Z.of_nat (length hs))%Z
               then hs ++ [""] else hs in
    let hs2 := take (Z.to_nat (best_doublecolon_start st)) hs1
               ++ [""] ++ drop (Z.to_nat best_doublecolon_end) hs1 in
    if (best_doublecolon_start st =? 0)%Z then "" :: hs2 else hs2
  else hs.

(** [str(IPv6Address)] ([_string_from_ip_int]): the compressed text *)
Definition str_ipv6 (a : IPv6Address) : string :=
  PyStr.join ":" (_compress_hextets (hextets a)).

(** [IPv6Interface.with_prefixlen] / [IPv4Interface.with_prefixlen] *)
Definition with_prefixlen (str_ip : N -> string) (a : IPInterface) : string :=
  str_ip (ip a) +:+ "/" +:+ PyStr.str_of_N (prefixlen a).


End IPAddress.

Import IPAddress.

Arguments str_ipv4 : simpl never.
Arguments str_ipv6 : simpl never.
Arguments with_prefixlen : simpl never.
Arguments packed : simpl never.
Arguments htonl : simpl never.

(** ** The network-interface model ([supervisor/host/network.py])

    The attributes are those that [generate.py] reads. The members of the
    [str]-valued enumerations [InterfaceType], [InterfaceMethod] and
    [AuthMethod] compare equal to their values, and it is with the values
    that the code compares them; they are held as these values. *)

Module Network.

Record IpConfig : Type := {
  method : string;
  address : list IPInterface;
  gateway : option N;
  nameservers : list N
}.

Record VlanConfig : Type := { vlan_id : Z; vlan_interface : string }.

Record WifiConfig : Type := { ssid : string; auth : string; psk : option string }.

Record Interface : Type := {
  name : string;
  type : string;
  ipv4 : IpConfig;
  ipv6 : IpConfig;
  vlan : option VlanConfig;
  wifi : option WifiConfig
}.

End Network.

Import Network.

(** Modelled from the spec: [InterfaceType] of [supervisor/host/const.py]
    is not among the sources; the value of its member [VLAN] is the type
    string ["vlan"] of the specification's [type] enumeration, the one that
    [generate.py] tests before it reads [interface.vlan]. *)
Definition VLAN : string := "vlan".

(** ** The store of [dict] objects *)

Module Store.





End Store.

Import Store.

(** ** [generate.py] *)

(** Truth value of an optional [str]: [None] and [""] are false. *)
Definition truthy (s : option string) : bool :=
  match s with
  | Some s' => negb (String.eqb s' "")
  | None => false
  end.


(** [int(address.with_prefixlen.split("/")[-1])] *)
Definition prefix_of (str_ip : N -> string) (a : IPInterface) : outcome Z :=
  match PyStr.int (List.last (PyStr.split "/" (with_prefixlen str_ip a)) "") with
  | Some z => Ret z
  | None => Raise ValueError
  end.

(** The sub-document appended for one address (lines 66-69 and 89-92). *)
Definition address_entry (str_ip : N -> string) (a : IPInterface) (prefix : Z) : PyValue :=
  VDict [("address", Variant "s" (VStr (str_ip (ip a))));
         ("prefix", Variant "u" (VInt prefix))].


(** The loop of lines 86-92 over [interface.ipv6.address]. *)
Fixpoint ipv6_adressdata (addresses : list IPInterface) (adressdata : list PyValue)
    : outcome (list PyValue) :=
  match addresses with
  | [] => Ret adressdata
  | address :: rest =>
      if PyStr.startswith (with_prefixlen str_ipv6 address) "fe80::" then
        ipv6_adressdata rest adressdata
      else
        match prefix_of str_ipv6 address with
        | Ret prefix =>
            ipv6_adressdata rest (adressdata ++ [address_entry str_ipv6 address prefix])
        | Raise e => Raise e
        end
  end.

Definition lift {S A} (o : outcome A) : M S A := fun s => (o, s).

(** The name of the connection (lines 27-30 and 157-160). *)
Definition connection_name {S} (interface : Interface) (name : option string) : M S string :=
  let name :=
    match name with
    | Some n =>
        if negb (truthy name) || negb (PyStr.startswith n "Supervisor")
        then "Supervisor " +:+ interface.(Network.name) else n
    | None => "Supervisor " +:+ interface.(Network.name)
    end in
  if String.eqb interface.(type) VLAN then
    let* v := attr_of interface.(vlan) in
    ret (name +:+ "." +:+ PyStr.str_of_Z v.(vlan_id))
  else ret name.





(** The two filters that the template is given. *)
Definition ipv4_to_int (ip_address : N) : N := htonl ip_address.

Definition ipv6_to_byte (ip_address : N) : string :=
  "[byte " +:+
  PyStr.join ", " (map (fun val => "0x" +:+ PyStr.hex2 (N_of_ascii val))
                       (list_ascii_of_string (packed ip_address))) +:+ "]".

(** The template [interface_update.tmpl] is an asset outside the sources:
    it is a parameter, a function of the two filters and of the three
    values that [render] is given. *)
Definition Template : Type :=
  (N -> N) -> (N -> string) -> Interface -> string -> string -> string.

(** The value that line 164 assigns to [interface.wifi.ssid]. *)
Definition fix_ssid (ssid : string) : string :=
  PyStr.join ", " (map (fun x => "0x" +:+ x) (PyStr.split "," (PyStr.bytes_hex ssid))).

Definition set_ssid (s : string) (interface : Interface) : Interface :=
  {| name := interface.(name); type := interface.(type);
     ipv4 := interface.(ipv4); ipv6 := interface.(ipv6);
     vlan := interface.(vlan);
     wifi := match interface.(wifi) with
             | Some w => Some {| ssid := s; auth := w.(auth); psk := w.(psk) |}
             | None => None
             end |}.

(** [interface_update_payload]; the state is the caller's [interface]
    object, which the call reads and assigns to. *)
Definition interface_update_payload (template : Template)
    (name uuid : option string) (uuid4 : string) : M Interface string :=
  let* interface := get in
  let uuid := match uuid with
              | Some u => if truthy uuid then u else uuid4
              | None => uuid4
              end in
  let* name := connection_name interface name in
  (match interface.(wifi) with
   | Some w => modify (set_ssid (fix_ssid w.(ssid)))
   | None => ret tt
   end) >>
  let* interface := get in
  ret (template ipv4_to_int ipv6_to_byte interface name uuid).

(** ** [module.py]: the Home Assistant control object *)

Module HomeAssistant.

(** [WSType] of [supervisor/homeassistant/const.py]: the two members
    that [backup] names. *)
Inductive WSType : Type := BACKUP_START | BACKUP_END.

(** A message [{ATTR_TYPE: t}], held as the value of its type field. *)
Inductive Message : Type :=
| WS (t : WSType)
| Tag (t : string).

(** The answer to [get_config], as far as the handler reads it: a
    [dict] whose values are lists of names. *)
Abbreviation Configuration := (gmap string (list string)).

(** [PolicyGroup] of [supervisor/hardware/const.py]: the member used. *)
Inductive PolicyGroup : Type := UART.

(** A hardware device, held as the path of its node. *)
Definition Device : Type := string.

(** The blocking jobs handed to the executor. *)
Inductive Job : Type := write_tarfile_job | restore_tarfile_job.

(** What the collaborators see of a call, in order. *)
Inductive Event : Type :=
| SendCommand (m : Message)
| SendMessage (m : Message)
| RunInExecutor (j : Job).

Inductive Level : Type := INFO | WARNING.

(** *** The file system and the archive *)

(** A path, as the components of its absolute form. *)
Abbreviation Path := (list string).

Inductive Node : Type :=
| File (content : string)
| Directory.

(** The file system: the files, and the directories that are there
    on their own. *)
Abbreviation FS := (gmap (list string) Node).

(** What [tarfile] finds in an archive, in order: a regular-file
    member, or a place where the archive is damaged. Entering the
    [SecureTarFile] (of [supervisor/utils/tar.py], outside the sources) is
    taken to give the [tarfile.TarFile] of these entries. *)
Inductive TarEntry : Type :=
| TarInfo (name : string) (data : string)
| Damaged.



(** [p] lies in the directory [dir] or below it. *)
Fixpoint inside (dir p : Path) : bool :=
  match dir, p with
  | [], _ => true
  | d :: dir', c :: p' => String.eqb d c && inside dir' p'
  | _ :: _, [] => false
  end.




(** *** The world around one call *)

Record World : Type := {
  events : list Event;
  log : list (Level * string);
  fs : FS;
  tar : list TarEntry
}.

Definition record_event (e : Event) (w : World) : World :=
  {| events := events w ++ [e]; log := log w; fs := fs w; tar := tar w |}.

Definition record_log (l : Level) (msg : string) (w : World) : World :=
  {| events := events w; log := log w ++ [(l, msg)]; fs := fs w; tar := tar w |}.


Definition set_tar (t : list TarEntry) (w : World) : World :=
  {| events := events w; log := log w; fs := fs w; tar := t |}.

(** The object and its collaborators, whose code is outside the
    sources: the websocket of the instance (its answer may depend on
    what happened before), [atomic_contents_add] of
    [supervisor/utils/tar.py], the hardware policy, the comparison of
    [AwesomeVersion], and the configuration values the object reads. *)
Record HomeAssistant : Type := {
  ws_async_send_command : list Event -> Message -> outcome (option Configuration);
  ws_send_message : list Event -> Message -> outcome unit;
  atomic_contents_add :
    FS -> Path -> list string -> string -> list TarEntry -> outcome unit * list TarEntry;
  is_match_cgroup : PolicyGroup -> Device -> bool;
  version_lt : string -> string -> outcome bool;
  version : option string;
  path_supervisor : Path;
  FOLDER_HOMEASSISTANT : string
}.

Definition HOMEASSISTANT_BACKUP_EXCLUDE : list string :=
  ["*.db-shm"; "*.corrupt.*"; "__pycache__/*"; "*.log"; "*.log.*"; "OZW_Log.txt"].

Definition _LOGGER_info (msg : string) : M World unit := modify (record_log INFO msg).
Definition _LOGGER_warning (msg : string) : M World unit := modify (record_log WARNING msg).

(** [await websocket.async_send_command(m)] *)
Definition async_send_command (self : HomeAssistant) (m : Message)
    : M World (option Configuration) :=
  fun w => (ws_async_send_command self (events w) m, record_event (SendCommand m) w).

(** [websocket.send_message(m)] *)
Definition send_message (self : HomeAssistant) (m : Message) : M World unit :=
  fun w => (ws_send_message self (events w) m, record_event (SendMessage m) w).

(** [await self.sys_run_in_executor(job)] *)
Definition sys_run_in_executor (j : Job) (job : M World unit) : M World unit :=
  modify (record_event (RunInExecutor j)) >> job.

(** [Path(self.sys_config.path_supervisor, FOLDER_HOMEASSISTANT)] *)
Definition origin_dir (self : HomeAssistant) : Path :=
  path_supervisor self ++ [FOLDER_HOMEASSISTANT self].

(** [_hardware_events] *)
Definition _hardware_events (self : HomeAssistant) (device : Device) : M World unit :=
  if negb (is_match_cgroup self UART device) then ret tt
  else
    match version self with
    | None => ret tt
    | Some v =>
        if String.eqb v "" then ret tt
        else
          let* below := lift (version_lt self v "2021.9.0") in
          if (below : bool) then ret tt
          else
            let* configuration := async_send_command self (Tag "get_config") in
            match configuration with
            | None => ret tt
            | Some c =>
                if bool_decide (c = ∅) ||
                   negb (bool_decide ("usb" ∈ default [] (c !! "components")))
                then ret tt
                else send_message self (Tag "usb/scan")
            end
    end.

(** The job [_write_tarfile] of [backup] *)
Definition _write_tarfile (self : HomeAssistant) : M World unit :=
  fun w =>
    match atomic_contents_add self (fs w) (origin_dir self)
            HOMEASSISTANT_BACKUP_EXCLUDE "." (tar w) with
    | (r, t) => (r, set_tar t w)
    end.

(** [backup] *)
Definition backup (self : HomeAssistant) : M World unit :=
  try_except
    (async_send_command self (WS BACKUP_START) >> ret tt)
    [HomeAssistantWSError]
    (fun _ => _LOGGER_warning
                "Preparing backup of Home Assistant Core failed. Check HA Core logs.") >>
  try_finally
    (_LOGGER_info "Backing up Home Assistant Core config folder" >>
     sys_run_in_executor write_tarfile_job (_write_tarfile self) >>
     _LOGGER_info "Backup Home Assistant Core config folder done")
    (try_except
       (async_send_command self (WS BACKUP_END) >> ret tt)
       [HomeAssistantWSError]
       (fun _ => _LOGGER_warning
                   "Error during Home Assistant Core backup. Check HA Core logs.")).



End HomeAssistant.

Import HomeAssistant.

(** ** Notions used by the properties *)

(** The sub-document of an address, with the prefix length as its prefix. *)
Definition entry_of (str_ip : N -> string) (a : IPInterface) : PyValue :=
  address_entry str_ip a (Z.of_N (prefixlen a)).

(** The test of line 87 of [generate.py]. *)
Definition starts_fe80 (a : IPInterface) : bool :=
  PyStr.startswith (with_prefixlen str_ipv6 a) "fe80::".

(** The invariant of the data model: a [vlan] interface has its [vlan]
    block and a [wireless] one its [wifi] block. *)
Definition valid_interface (interface : Interface) : bool :=
  (if String.eqb interface.(type) "vlan" then bool_decide (is_Some interface.(vlan))
   else true) &&
  (if String.eqb interface.(type) "wireless" then bool_decide (is_Some interface.(wifi))
   else true).


(** A send over the channel that ends as the channel's calls do: with an
    answer or with [HomeAssistantWSError]. *)
Definition channel_outcome {A} (r : outcome A) : Prop :=
  match r with
  | Ret _ => True
  | Raise e => e = HomeAssistantWSError
  end.

Definition START_WARNING : Level * string :=
  (WARNING, "Preparing backup of Home Assistant Core failed. Check HA Core logs.").
Definition END_WARNING : Level * string :=
  (WARNING, "Error during Home Assistant Core backup. Check HA Core logs.").


(** ** Sample inputs *)

Module Samples.

Definition auto_config : IpConfig :=
  {| method := "auto"; address := []; gateway := None; nameservers := [] |}.


Definition eth0 : Interface :=
  {| name := "eth0"; type := "ethernet"; ipv4 := auto_config; ipv6 := auto_config;
     vlan := None; wifi := None |}.


Definition home_wifi : WifiConfig :=
  {| ssid := "a"; auth := "wpa-psk"; psk := Some "secret" |}.

Definition wlan0 : Interface :=
  {| name := "wlan0"; type := "wireless"; ipv4 := auto_config; ipv6 := auto_config;
     vlan := None; wifi := Some home_wifi |}.

(** A template that prints the name, the uuid and the SSID. *)
Definition ssid_template : Template :=
  fun _ _ interface name uuid =>
    match interface.(wifi) with
    | Some w => name +:+ "|" +:+ uuid +:+ "|" +:+ w.(ssid)
    | None => name +:+ "|" +:+ uuid
    end.

(** A comparison of versions made of dotted numbers. *)
Fixpoint lex_lt (a b : list Z) : bool :=
  match a, b with
  | [], [] => false
  | [], _ :: _ => true
  | _ :: _, [] => false
  | x :: a', y :: b' => (x <? y)%Z || ((x =? y)%Z && lex_lt a' b')
  end.

Definition dotted_lt (v m : string) : outcome bool :=
  match mapM PyStr.int (PyStr.split "." v), mapM PyStr.int (PyStr.split "." m) with
  | Some a, Some b => Ret (lex_lt a b)
  | _, _ => Raise AwesomeVersionException
  end.

(** A channel on which every send fails, and an instance that answers
    [get_config] with a configuration that has the [usb] component. *)
Definition dead_channel (_ : list Event) (_ : Message) : outcome (option Configuration) :=
  Raise HomeAssistantWSError.

Definition usb_instance (_ : list Event) (m : Message) : outcome (option Configuration) :=
  match m with
  | Tag t => if String.eqb t "get_config"
             then Ret (Some {[ "components" := ["http"; "usb"] ]})
             else Ret None
  | WS _ => Ret None
  end.

(** A population that adds one file, and one that fails. *)
Definition add_one (_ : FS) (_ : Path) (_ : list string) (_ : string)
    (t : list TarEntry) : outcome unit * list TarEntry :=
  (Ret tt, t ++ [TarInfo "./configuration.yaml" "homeassistant:"]).

Definition add_fails (_ : FS) (_ : Path) (_ : list string) (_ : string)
    (t : list TarEntry) : outcome unit * list TarEntry :=
  (Raise OSError, t).

Definition core (channel : list Event -> Message -> outcome (option Configuration))
    (add : FS -> Path -> list string -> string -> list TarEntry
           -> outcome unit * list TarEntry)
    (installed : option string) : HomeAssistant :=
  {| ws_async_send_command := channel;
     ws_send_message := fun _ _ => Ret tt;
     atomic_contents_add := add;
     is_match_cgroup := fun _ device => PyStr.startswith device "/dev/tty";
     version_lt := dotted_lt;
     version := installed;
     path_supervisor := ["data"];
     FOLDER_HOMEASSISTANT := "homeassistant" |}.

Definition world (f : FS) (t : list TarEntry) : World :=
  {| events := []; log := []; fs := f; tar := t |}.


End Samples.

(** ** The profile in closed form *)

(** The name that lines 27-30 derive, when they derive one. *)
Definition derived_name (interface : Interface) (name : option string) : string :=
  match (connection_name interface name tt).1 with
  | Ret n => n
  | Raise _ => ""
  end.

Definition derived_uuid (uuid : option string) (uuid4 : string) : string :=
  match uuid with
  | Some u => if truthy uuid then u else uuid4
  | None => uuid4
  end.









(** ** Further notions used by the properties *)


Definition zero_or_x (b : bool) : string := if b then "0" else "x".

(** Two lower-case hexadecimal digits for every byte. *)
Definition is_hex_digit (c : ascii) : bool :=
  existsb (Ascii.eqb c) (list_ascii_of_string "0123456789abcdef").

Definition hex_byte (c : ascii) : string := "0x" +:+ PyStr.hex2 (N_of_ascii c).


(** ** [module.py]: the settings of the object *)

Module Settings.

(** The values that the settings hold. *)
Inductive Value : Type :=
| VNone
| VBool (b : bool)
| VNum (z : Z)
| VText (s : string).

(** [self._data], a [dict] with text keys. *)
Abbreviation Data := (gmap string Value).

Definition KeyError : exn := OtherException "KeyError".

(** [_data[key]] *)
Definition item (key : string) (_data : Data) : outcome Value :=
  match _data !! key with
  | Some v => Ret v
  | None => Raise KeyError
  end.

(** [_data.get(key)] *)
Definition get (key : string) (_data : Data) : Value := default VNone (_data !! key).

(** The truth value of a setting. *)
Definition truth (v : Value) : bool :=
  match v with
  | VNone => false
  | VBool b => b
  | VNum z => negb (z =? 0)%Z
  | VText s => negb (String.eqb s "")
  end.

(** A setting inside an f-string. *)
Definition format (v : Value) : string :=
  match v with
  | VNone => "None"
  | VBool true => "True"
  | VBool false => "False"
  | VNum z => PyStr.str_of_Z z
  | VText s => s
  end.

(** The keys, which [supervisor/const.py] names, and what the object
    reads from its collaborators: the machine of the system and the
    address of the instance. *)
Record Object : Type := {
  ATTR_PORT : string;
  ATTR_SSL : string;
  ATTR_IMAGE : string;
  sys_machine : string;
  ip_address : IPv4Address
}.

Definition api_port (self : Object) (_data : Data) : outcome Value :=
  item (ATTR_PORT self) _data.

Definition set_api_port (self : Object) (value : Value) (_data : Data) : Data :=
  <[ATTR_PORT self := value]> _data.

Definition api_ssl (self : Object) (_data : Data) : outcome Value :=
  item (ATTR_SSL self) _data.

Definition set_api_ssl (self : Object) (value : Value) (_data : Data) : Data :=
  <[ATTR_SSL self := value]> _data.

(** [api_url] *)
Definition api_url (self : Object) (_data : Data) : outcome string :=
  match api_ssl self _data with
  | Raise e => Raise e
  | Ret ssl =>
      match api_port self _data with
      | Raise e => Raise e
      | Ret port =>
          Ret ((if truth ssl then "https" else "http") +:+ "://" +:+
               str_ipv4 (ip_address self) +:+ ":" +:+ format port)
      end
  end.

(** [ws_url] *)
Definition ws_url (self : Object) (_data : Data) : outcome string :=
  match api_ssl self _data with
  | Raise e => Raise e
  | Ret ssl =>
      match api_port self _data with
      | Raise e => Raise e
      | Ret port =>
          Ret ((if truth ssl then "wss" else "ws") +:+ "://" +:+
               str_ipv4 (ip_address self) +:+ ":" +:+ format port +:+ "/api/websocket")
      end
  end.

(** [image] *)
Definition image (self : Object) (_data : Data) : outcome Value :=
  if truth (get (ATTR_IMAGE self) _data) then item (ATTR_IMAGE self) _data
  else Ret (VText ("ghcr.io/home-assistant/" +:+ sys_machine self +:+ "-homeassistant")).

Definition set_image (self : Object) (value : Value) (_data : Data) : Data :=
  <[ATTR_IMAGE self := value]> _data.

End Settings.

(** ** Further sample inputs *)

Module MoreSamples.









(** [fe80::211:22ff:fe33:4455/64] and [2001:db8::1/64]. *)
Definition link_local : IPInterface :=
  {| ip := 0xfe80000000000000021122fffe334455%N; prefixlen := 64%N |}.

Definition global6 : IPInterface :=
  {| ip := 0x20010db8000000000000000000000001%N; prefixlen := 64%N |}.

(** A channel that fails with an error of the operating system, one
    that does so for BACKUP_END only, and an instance whose configuration
    has no [components]. *)
Definition broken_channel (_ : list Event) (_ : Message) : outcome (option Configuration) :=
  Raise OSError.

Definition breaks_at_end (_ : list Event) (m : Message) : outcome (option Configuration) :=
  match m with
  | WS BACKUP_END => Raise OSError
  | _ => Ret None
  end.

Definition plain_instance (_ : list Event) (_ : Message) : outcome (option Configuration) :=
  Ret (Some {[ "unit_system" := ["metric"] ]}).



(** The settings of an instance at [172.30.32.1], port 8123, no SSL. *)
Definition settings_object : Settings.Object :=
  {| Settings.ATTR_PORT := "port"; Settings.ATTR_SSL := "ssl";
     Settings.ATTR_IMAGE := "image"; Settings.sys_machine := "raspberrypi4";
     Settings.ip_address := 0xac1e2001%N |}.

Definition settings_data : Settings.Data :=
  {[ "port" := Settings.VNum 8123; "ssl" := Settings.VBool false ]}.

End MoreSamples.

(** * Properties *)

(** ** Texts *)

Section split_lemmas.

Variable sep : ascii.

(** A text without the separator is one piece. *)
Lemma split_free (d : string) : PyStr.free_of sep d = true -> PyStr.split sep d = [d].
Proof.
  induction d as [|c d IH]; simpl; [reflexivity|].
  destruct (Ascii.eqb c sep); simpl; [discriminate|].
  intros H. rewrite (IH H). reflexivity.
Qed.

Lemma split_app_sep (s d : string) :
  PyStr.free_of sep d = true ->
  exists p l, PyStr.split sep (s +:+ String sep d) = p :: l ++ [d].
Proof.
  intros Hd. induction s as [|c s IH]; simpl.
  - rewrite Ascii.eqb_refl, (split_free d Hd). exists "", []. reflexivity.
  - destruct IH as (p & l & ->). destruct (Ascii.eqb c sep).
    + exists "", (p :: l). reflexivity.
    + exists (String c p), l. reflexivity.
Qed.

Lemma last_split_app_sep (s d : string) :
  PyStr.free_of sep d = true ->
  List.last (PyStr.split sep (s +:+ String sep d)) "" = d.
Proof.
  intros Hd. destruct (split_app_sep s d Hd) as (p & l & ->).
  change (p :: l ++ [d]) with ((p :: l) ++ [d]). apply List.last_last.
Qed.

End split_lemmas.

Lemma decimal_free_of_slash (d : Decimal.uint) :
  PyStr.free_of "/" (DecimalString.NilEmpty.string_of_uint d) = true.
Proof. induction d; simpl; auto. Qed.

Lemma str_of_N_free_of_slash (n : N) : PyStr.free_of "/" (PyStr.str_of_N n) = true.
Proof.
  unfold PyStr.str_of_N, DecimalString.NilZero.string_of_uint.
  destruct (N.to_uint n); try reflexivity; apply decimal_free_of_slash.
Qed.

Lemma N_to_uint_nonnil (n : N) : N.to_uint n <> Decimal.Nil.
Proof.
  destruct n as [|p]; simpl; [discriminate|]. apply DecimalPos.Unsigned.to_uint_nonnil.
Qed.

Lemma int_str_of_N (n : N) : PyStr.int (PyStr.str_of_N n) = Some (Z.of_N n).
Proof.
  unfold PyStr.int, PyStr.str_of_N.
  rewrite DecimalString.NilZero.usu by apply N_to_uint_nonnil.
  rewrite DecimalN.Unsigned.of_to. reflexivity.
Qed.

(** [int(address.with_prefixlen.split("/")[-1])] is the prefix length. *)
Lemma prefix_of_prefixlen (str_ip : N -> string) (a : IPInterface) :
  prefix_of str_ip a = Ret (Z.of_N (prefixlen a)).
Proof.
  unfold prefix_of, with_prefixlen.
  change ("/" +:+ PyStr.str_of_N (prefixlen a))
    with (String "/" (PyStr.str_of_N (prefixlen a))).
  rewrite last_split_app_sep by apply str_of_N_free_of_slash.
  rewrite int_str_of_N. reflexivity.
Qed.

(** ** The address loops *)


Lemma ipv6_adressdata_eq (addresses : list IPInterface) (acc : list PyValue) :
  ipv6_adressdata addresses acc =
  Ret (acc ++ map (entry_of str_ipv6)
                  (List.filter (fun a => negb (starts_fe80 a)) addresses)).
Proof.
  revert acc.
  induction addresses as [|a l IH]; intros acc; cbn [ipv6_adressdata List.filter].
  - rewrite app_nil_r. reflexivity.
  - fold (starts_fe80 a). destruct (starts_fe80 a); cbn [negb map].
    + apply IH.
    + rewrite prefix_of_prefixlen, IH, <- app_assoc. reflexivity.
Qed.

(** ** Running [get_connection_from_interface] *)









(** ** The text of an address and the range [fe80::/10] *)



Lemma append_assoc (a b c : string) : (a +:+ b) +:+ c = a +:+ (b +:+ c).
Proof.
  induction a as [|x a IH]; [reflexivity|].
  change (String x ((a +:+ b) +:+ c) = String x (a +:+ (b +:+ c))). now f_equal.
Qed.

Lemma join_cons (sep x y : string) (l : list string) :
  PyStr.join sep (x :: y :: l) = x +:+ sep +:+ PyStr.join sep (y :: l).
Proof. reflexivity. Qed.






(** ** The wireless sections *)


(** ** [interface_update_payload] *)

(** C6, as amended. The call leaves the caller's interface object as it
    was when the interface has no wifi block, and a second render of it,
    with the same name and uuid, then gives the same text; when there is
    a wifi block and the call returns a text, the object is left with
    [wifi.ssid] overwritten by the comma-joined [0x] bytes of the SSID and
    with every other attribute as it was. *)
Theorem interface_update_payload_effect
    (template : Template) (name uuid : option string) (uuid4 : string)
    (interface : Interface) :
  exists r interface',
    interface_update_payload template name uuid uuid4 interface = (r, interface') /\
    (interface.(wifi) = None ->
       interface' = interface /\
       interface_update_payload template name uuid uuid4 interface' = (r, interface')) /\
    (forall w text, interface.(wifi) = Some w -> r = Ret text ->
       interface' =
         {| name := interface.(Network.name); type := interface.(Network.type);
            ipv4 := interface.(Network.ipv4); ipv6 := interface.(Network.ipv6);
            vlan := interface.(vlan);
            wifi := Some {| ssid := fix_ssid w.(ssid); auth := w.(auth);
                            psk := w.(psk) |} |}).
Proof.
  destruct interface as [nm ty v4 v6 vl wf].
  unfold interface_update_payload, connection_name, VLAN.
  cbv beta delta [bind ret raise attr_of get modify].
  cbn [Network.type Network.vlan Network.wifi Network.name].
  destruct (String.eqb ty "vlan") eqn:E; [destruct vl as [v|]|]; destruct wf as [w|];
    do 2 eexists; (split; [reflexivity|]); split.
  all: try discriminate.
  all: try (intros w0 text Hw Hr; injection Hw as <-; reflexivity).
  all: try (intros w0 text Hw Hr; discriminate Hr).
  all: intros _; split; [reflexivity|].
  all: cbv beta delta [interface_update_payload bind ret raise attr_of get modify
                       connection_name VLAN];
    cbn [Network.type Network.vlan Network.wifi Network.name]; rewrite E; reflexivity.
Qed.

Lemma interface_update_payload_effect_witness :
  let call := interface_update_payload Samples.ssid_template None (Some "u") "fresh" in
  wifi Samples.eth0 = None /\
  exists r interface',
    call Samples.eth0 = (r, interface') /\
    interface' = Samples.eth0 /\
    call interface' = (r, interface').
Proof.
  cbv zeta. split; [reflexivity|].
  destruct (interface_update_payload_effect
              Samples.ssid_template None (Some "u") "fresh" Samples.eth0)
    as (r & i' & H & Hnone & _).
  exists r, i'. destruct (Hnone eq_refl) as [H1 H2]. auto.
Defined.

(** C6 as stated fails: after one render of a wireless interface the
    caller's object holds the rewritten SSID, and a second render of the
    same object gives another text. *)
Lemma interface_update_payload_rewrites_ssid :
  let call := interface_update_payload Samples.ssid_template None (Some "u") "fresh" in
  (call Samples.wlan0).2 <> Samples.wlan0 /\
  (call Samples.wlan0).1 = Ret "Supervisor wlan0|u|0x61" /\
  (call (call Samples.wlan0).2).1 = Ret "Supervisor wlan0|u|0x30, 0x78, 0x36, 0x31".
Proof. vm_compute. repeat split; try reflexivity. discriminate. Qed.

(** ** [backup] *)

Ltac open_backup :=
  unfold backup, sys_run_in_executor, _write_tarfile, async_send_command,
    _LOGGER_info, _LOGGER_warning;
  cbv beta delta [bind ret raise try_except try_finally modify];
  cbn [events log fs tar record_event record_log set_tar].


(** C4. When every send over the channel fails with the channel's
    error and the population of the archive succeeds, [backup] returns
    without error with the archive as the population left it;
    [BACKUP_START] was sent once, before the population, and [BACKUP_END]
    once, after it, and each failure was logged as a warning. *)
Theorem backup_completes_when_channel_fails
    (self : HomeAssistant) (w : World) (t : list TarEntry) :
  (forall evs m, ws_async_send_command self evs m = Raise HomeAssistantWSError) ->
  atomic_contents_add self (fs w) (origin_dir self) HOMEASSISTANT_BACKUP_EXCLUDE "."
    (tar w) = (Ret tt, t) ->
  exists w',
    backup self w = (Ret tt, w') /\
    events w' = events w ++ [SendCommand (WS BACKUP_START);
                             RunInExecutor write_tarfile_job;
                             SendCommand (WS BACKUP_END)] /\
    tar w' = t /\
    fs w' = fs w /\
    log w' = log w ++ [START_WARNING;
                       (INFO, "Backing up Home Assistant Core config folder");
                       (INFO, "Backup Home Assistant Core config folder done");
                       END_WARNING].
Proof.
  intros Hfail Hpop. open_backup.
  rewrite !Hfail. cbn. rewrite Hpop. cbn. rewrite Hfail. cbn.
  eexists. split; [reflexivity|]. cbn. rewrite <- !app_assoc. cbn [app].
  repeat split; reflexivity.
Qed.

(** ** [_hardware_events] *)

Ltac open_hardware_events :=
  unfold _hardware_events, async_send_command, send_message;
  cbv beta delta [bind ret raise lift].

(** C9. When the device does not match the policy group, or the
    installed version is unknown ([None] or empty), or it is below
    ["2021.9.0"], the handler returns having sent nothing: no [get_config]
    query and no [usb/scan]. In every case what the handler sends is added
    after what was sent before, and [usb/scan] is among it only if the
    device matches, the version is known and not below ["2021.9.0"], and
    the answer to [get_config] is a non-empty configuration whose
    [components] list holds ["usb"]. *)
Theorem hardware_events_guards (self : HomeAssistant) (device : Device) (w : World) :
  ((is_match_cgroup self UART device = false \/
    truthy (version self) = false \/
    (exists v, version self = Some v /\ version_lt self v "2021.9.0" = Ret true)) ->
   _hardware_events self device w = (Ret tt, w)) /\
  (exists r sent,
     _hardware_events self device w = (r, {| events := events w ++ sent; log := log w;
                                             fs := fs w; tar := tar w |}) /\
     (SendMessage (Tag "usb/scan") ∈ sent ->
        is_match_cgroup self UART device = true /\
        (exists v, version self = Some v /\ v <> "" /\
                   version_lt self v "2021.9.0" = Ret false) /\
        (exists c, ws_async_send_command self (events w) (Tag "get_config") = Ret (Some c) /\
                   "usb" ∈ default [] (c !! "components")) /\
        sent = [SendCommand (Tag "get_config"); SendMessage (Tag "usb/scan")])).
Proof.
  destruct w as [evs lg f t]. open_hardware_events. cbn [events log fs tar].
  split.
  - intros [H|[H|(v & Hv & Hlt)]].
    + rewrite H. reflexivity.
    + destruct (is_match_cgroup self UART device); [|reflexivity].
      destruct (version self) as [v|]; [|reflexivity].
      cbn in H. apply negb_false_iff in H. rewrite H. reflexivity.
    + destruct (is_match_cgroup self UART device); [|reflexivity].
      rewrite Hv, Hlt. destruct (String.eqb v ""); reflexivity.
  - assert (Hnil : forall r : outcome unit, exists r' sent,
              (r, {| events := evs; log := lg; fs := f; tar := t |}) =
              (r', {| events := evs ++ sent; log := lg; fs := f; tar := t |}) /\
              (SendMessage (Tag "usb/scan") ∈ sent ->
                 is_match_cgroup self UART device = true /\
                 (exists v, version self = Some v /\ v <> "" /\
                            version_lt self v "2021.9.0" = Ret false) /\
                 (exists c, ws_async_send_command self evs (Tag "get_config") = Ret (Some c) /\
                            "usb" ∈ default [] (c !! "components")) /\
                 sent = [SendCommand (Tag "get_config"); SendMessage (Tag "usb/scan")])).
    { intros r. exists r, []. rewrite app_nil_r. split; [reflexivity|].
      intros H. inversion H. }
    destruct (is_match_cgroup self UART device) eqn:Hm; cbn [negb]; [|apply Hnil].
    destruct (version self) as [v|] eqn:Hv; [|apply Hnil].
    destruct (String.eqb_spec v "") as [->|Hne]; [apply Hnil|].
    destruct (version_lt self v "2021.9.0") as [[|]|e] eqn:Hlt; try apply Hnil.
    unfold record_event. cbn [events log fs tar].
    assert (Hone : forall r : outcome unit, exists r' sent,
              (r, {| events := evs ++ [SendCommand (Tag "get_config")]; log := lg;
                     fs := f; tar := t |}) =
              (r', {| events := evs ++ sent; log := lg; fs := f; tar := t |}) /\
              (SendMessage (Tag "usb/scan") ∈ sent ->
                 true = true /\
                 (exists v0, Some v = Some v0 /\ v0 <> "" /\
                            version_lt self v0 "2021.9.0" = Ret false) /\
                 (exists c, ws_async_send_command self evs (Tag "get_config") = Ret (Some c) /\
                            "usb" ∈ default [] (c !! "components")) /\
                 sent = [SendCommand (Tag "get_config"); SendMessage (Tag "usb/scan")])).
    { intros r. exists r, [SendCommand (Tag "get_config")]. split; [reflexivity|].
      intros H. apply list_elem_of_singleton in H. discriminate H. }
    destruct (ws_async_send_command self evs (Tag "get_config")) as [[c|]|e] eqn:Hc;
      try apply Hone.
    destruct (bool_decide (c = ∅)); cbn [orb]; [apply Hone|].
    destruct (bool_decide ("usb" ∈ default [] (c !! "components"))) eqn:Husb;
      cbn [negb]; [|apply Hone].
    apply bool_decide_eq_true in Husb.
    eexists _, [SendCommand (Tag "get_config"); SendMessage (Tag "usb/scan")].
    cbn [events log fs tar]. rewrite <- app_assoc. cbn [app].
    split; [reflexivity|]. intros _. repeat split; eauto.
Qed.

(** ** [extractall] and [restore] *)










(** ** The properties at sample inputs *)







Lemma backup_completes_when_channel_fails_witness :
  let self := Samples.core Samples.dead_channel Samples.add_one None in
  exists w',
    backup self (Samples.world ∅ []) = (Ret tt, w') /\
    events w' = [SendCommand (WS BACKUP_START); RunInExecutor write_tarfile_job;
                 SendCommand (WS BACKUP_END)] /\
    tar w' = [TarInfo "./configuration.yaml" "homeassistant:"].
Proof.
  cbv zeta.
  destruct (backup_completes_when_channel_fails
              (Samples.core Samples.dead_channel Samples.add_one None)
              (Samples.world ∅ [])
              [TarInfo "./configuration.yaml" "homeassistant:"]
              (fun _ _ => eq_refl) eq_refl)
    as (w' & Hb & He & Ht & _).
  exists w'. auto.
Defined.

Lemma hardware_events_guards_witness :
  let self := Samples.core Samples.usb_instance Samples.add_one (Some "2021.8.6") in
  version_lt self "2021.8.6" "2021.9.0" = Ret true /\
  _hardware_events self "/dev/ttyUSB0" (Samples.world ∅ []) = (Ret tt, Samples.world ∅ []).
Proof.
  cbv zeta. split; [reflexivity|].
  apply (proj1 (hardware_events_guards
                  (Samples.core Samples.usb_instance Samples.add_one (Some "2021.8.6"))
                  "/dev/ttyUSB0" (Samples.world ∅ []))).
  right. right. exists "2021.8.6". split; reflexivity.
Defined.





(** * Further properties *)




(** ** The name of a profile *)

Lemma prefix_append (p a b : string) :
  String.prefix p a = true -> String.prefix p (a +:+ b) = true.
Proof.
  revert p. induction a as [|d a IH]; intros p H.
  - destruct p; [|discriminate H]. destruct b; reflexivity.
  - change (String d a +:+ b) with (String d (a +:+ b)).
    destruct p as [|c p]; [reflexivity|].
    cbn [String.prefix] in *. destruct (ascii_dec c d); [auto|discriminate H].
Qed.








Lemma valid_other (interface : Interface) :
  interface.(type) <> "vlan" -> interface.(type) <> "wireless" ->
  valid_interface interface = true.
Proof.
  unfold valid_interface. intros H1 H2.
  apply String.eqb_neq in H1, H2. rewrite H1, H2. reflexivity.
Qed.











(** ** The addresses of [fe80::/64] *)

(** The scan looks at a group only to see whether it is ["0"]. *)
Lemma scan_step_ext (h h' : string) (st : scan) (index : Z) :
  String.eqb h "0" = String.eqb h' "0" -> scan_step st index h = scan_step st index h'.
Proof. intros H. unfold scan_step. rewrite H. reflexivity. Qed.

Lemma scan_from_ext (hs hs' : list string) (st : scan) (index : Z) :
  Forall2 (fun h h' => String.eqb h "0" = String.eqb h' "0") hs hs' ->
  scan_from st index hs = scan_from st index hs'.
Proof.
  intros H. revert st index. induction H as [|h h' hs hs' Hh _ IH]; intros st index.
  - reflexivity.
  - cbn [scan_from]. rewrite (scan_step_ext h h' st index Hh). apply IH.
Qed.

Lemma zero_or_x_eqb (h : string) :
  String.eqb h "0" = String.eqb (zero_or_x (String.eqb h "0")) "0".
Proof. destruct (String.eqb h "0"); reflexivity. Qed.

Lemma compress_fe80_zeros (h4 h5 h6 h7 : string) :
  exists y t,
    _compress_hextets ["fe80"; "0"; "0"; "0"; h4; h5; h6; h7] = "fe80" :: "" :: y :: t.
Proof.
  unfold _compress_hextets.
  rewrite (scan_from_ext _ ["fe80"; "0"; "0"; "0";
                            zero_or_x (String.eqb h4 "0"); zero_or_x (String.eqb h5 "0");
                            zero_or_x (String.eqb h6 "0"); zero_or_x (String.eqb h7 "0")]).
  - destruct (String.eqb h4 "0"), (String.eqb h5 "0"), (String.eqb h6 "0"),
      (String.eqb h7 "0"); vm_compute; eauto.
  - repeat constructor; apply zero_or_x_eqb.
Qed.

Lemma hextets_fe80_64 (x : N) :
  N.shiftr x 64 = 0xfe80000000000000%N ->
  hextet x 0 = 0xfe80%N /\ hextet x 1 = 0%N /\ hextet x 2 = 0%N /\ hextet x 3 = 0%N.
Proof.
  intros H. unfold hextet.
  change (16 * (7 - 0))%N with (64 + 48)%N. change (16 * (7 - 1))%N with (64 + 32)%N.
  change (16 * (7 - 2))%N with (64 + 16)%N. change (16 * (7 - 3))%N with (64 + 0)%N.
  rewrite <- !N.shiftr_shiftr, H. repeat split; reflexivity.
Qed.

(** Every address of [fe80::/64] has a text that starts with ["fe80::"]. *)
Lemma fe80_64_starts_fe80 (a : IPInterface) :
  N.shiftr (ip a) 64 = 0xfe80000000000000%N -> starts_fe80 a = true.
Proof.
  intros H. destruct (hextets_fe80_64 _ H) as (H0 & H1 & H2 & H3).
  unfold starts_fe80, PyStr.startswith, with_prefixlen, str_ipv6, hextets.
  cbn [map]. rewrite H0, H1, H2, H3.
  change (PyStr.hex_of_N 65152) with "fe80". change (PyStr.hex_of_N 0) with "0".
  match goal with |- context [_compress_hextets ["fe80"; "0"; "0"; "0"; ?h4; ?h5; ?h6; ?h7]] =>
    destruct (compress_fe80_zeros h4 h5 h6 h7) as (y & t & ->) end.
  apply prefix_append. rewrite !join_cons.
  change ("fe80" +:+ ":" +:+ "" +:+ ":" +:+ PyStr.join ":" (y :: t))
    with ("fe80::" +:+ PyStr.join ":" (y :: t)).
  apply prefix_append. reflexivity.
Qed.

(** X12. An address of [fe80::/64], the link-local addresses in use
    (group [fe80] followed by three zero groups), never gets into the
    array of the loop of lines 86-92, wherever it stands in the list. *)
Theorem ipv6_adressdata_skips_fe80_64
    (a : IPInterface) (before after : list IPInterface) (acc : list PyValue) :
  N.shiftr (ip a) 64 = 0xfe80000000000000%N ->
  ipv6_adressdata (before ++ a :: after) acc = ipv6_adressdata (before ++ after) acc.
Proof.
  intros H. rewrite !ipv6_adressdata_eq. do 3 f_equal.
  rewrite !List.filter_app. cbn [List.filter].
  rewrite (fe80_64_starts_fe80 a H). reflexivity.
Qed.

(** ** [interface_update_payload] and its filters *)

(** ** [split] after [join] *)

Lemma split_app_free (sep : ascii) (x r : string) :
  PyStr.free_of sep x = true ->
  PyStr.split sep (x +:+ String sep r) = x :: PyStr.split sep r.
Proof.
  induction x as [|c x IH]; intros H.
  - change ("" +:+ String sep r) with (String sep r). cbn [PyStr.split].
    rewrite Ascii.eqb_refl. reflexivity.
  - change (String c x +:+ String sep r) with (String c (x +:+ String sep r)).
    cbn [PyStr.split PyStr.free_of] in *.
    destruct (Ascii.eqb c sep); [discriminate H|]. rewrite (IH H). reflexivity.
Qed.

Lemma split_join (sep : ascii) (l : list string) :
  l <> [] -> forallb (PyStr.free_of sep) l = true ->
  PyStr.split sep (PyStr.join (String sep "") l) = l.
Proof.
  induction l as [|x [|y l] IH]; intros Hne H; [congruence| |].
  - cbn in H. apply andb_true_iff in H as [H _]. apply split_free, H.
  - cbn [forallb] in H. apply andb_true_iff in H as [Hx H].
    rewrite join_cons. change (String sep "" +:+ ?r) with (String sep r).
    rewrite split_app_free by exact Hx. f_equal. apply IH; [discriminate|exact H].
Qed.

Lemma hex2_byte (c : ascii) :
  exists d1 d2, PyStr.hex2 (N_of_ascii c) = String d1 (String d2 "") /\
                is_hex_digit d1 = true /\ is_hex_digit d2 = true.
Proof.
  destruct c as [[] [] [] [] [] [] [] []]; do 2 eexists; vm_compute; repeat split.
Qed.

Lemma hex_digit_not_comma (d : ascii) : is_hex_digit d = true -> Ascii.eqb d "," = false.
Proof. destruct d as [[] [] [] [] [] [] [] []]; intros H; try discriminate H; reflexivity. Qed.

Lemma hex2_free_of_comma (c : ascii) : PyStr.free_of "," (PyStr.hex2 (N_of_ascii c)) = true.
Proof.
  destruct (hex2_byte c) as (d1 & d2 & -> & H1 & H2). cbn [PyStr.free_of].
  rewrite (hex_digit_not_comma d1 H1), (hex_digit_not_comma d2 H2). reflexivity.
Qed.

(** The text that line 164 assigns, byte by byte. *)
Lemma fix_ssid_eq (ssid : string) :
  fix_ssid ssid =
    match list_ascii_of_string ssid with
    | [] => "0x"
    | bytes => PyStr.join ", " (map hex_byte bytes)
    end.
Proof.
  unfold fix_ssid, PyStr.bytes_hex.
  destruct (list_ascii_of_string ssid) as [|c bytes] eqn:E; [reflexivity|].
  rewrite (split_join ","); [now rewrite map_map| |].
  - discriminate.
  - apply forallb_forall. intros x Hx. apply in_map_iff in Hx as (b & <- & _).
    apply hex2_free_of_comma.
Qed.

Lemma string_length_append (a b : string) :
  String.length (a +:+ b) = String.length a + String.length b.
Proof.
  induction a as [|c a IH]; [reflexivity|].
  change (String c a +:+ b) with (String c (a +:+ b)). cbn [String.length]. now rewrite IH.
Qed.

Lemma hex_byte_length (c : ascii) : String.length (hex_byte c) = 4.
Proof. unfold hex_byte. destruct (hex2_byte c) as (d1 & d2 & -> & _). reflexivity. Qed.

Lemma join_hex_bytes_length (c : ascii) (bytes : list ascii) :
  String.length (PyStr.join ", " (map hex_byte (c :: bytes))) = 4 + 6 * length bytes.
Proof.
  revert c. induction bytes as [|b bytes IH]; intros c.
  - apply hex_byte_length.
  - cbn [map length]. rewrite join_cons, !string_length_append, hex_byte_length.
    change (hex_byte b :: map hex_byte bytes) with (map hex_byte (b :: bytes)).
    rewrite IH. cbn [String.length]. lia.
Qed.

Lemma list_ascii_length (s : string) : length (list_ascii_of_string s) = String.length s.
Proof. induction s as [|c s IH]; [reflexivity|]. cbn. now rewrite IH. Qed.

(** The rewritten SSID is never the SSID itself. *)
Lemma fix_ssid_changes (ssid : string) : fix_ssid ssid <> ssid.
Proof.
  intros H. apply (f_equal String.length) in H. rewrite fix_ssid_eq in H.
  rewrite <- (list_ascii_length ssid) in H.
  destruct (list_ascii_of_string ssid) as [|c bytes].
  - discriminate H.
  - rewrite join_hex_bytes_length in H. cbn [length] in H. lia.
Qed.

(** X13. The text that the call assigns to [wifi.ssid] lists the bytes
    of the SSID in order, each as [0x] and two hexadecimal digits, joined
    by [", "]; for the empty SSID it is ["0x"]. It is two characters long
    for the empty SSID and otherwise six for every byte less two. *)
Theorem fix_ssid_bytes (ssid : string) :
  fix_ssid ssid =
    match list_ascii_of_string ssid with
    | [] => "0x"
    | bytes => PyStr.join ", " (map hex_byte bytes)
    end /\
  String.length (fix_ssid ssid) =
    match String.length ssid with
    | 0 => 2
    | S n => 4 + 6 * n
    end.
Proof.
  split; [apply fix_ssid_eq|].
  rewrite fix_ssid_eq, <- (list_ascii_length ssid).
  destruct (list_ascii_of_string ssid) as [|c bytes]; [reflexivity|].
  rewrite join_hex_bytes_length. reflexivity.
Qed.

(** What the call does, in one equation. *)
Lemma interface_update_payload_run
    (template : Template) (name uuid : option string) (uuid4 : string)
    (interface : Interface) :
  interface_update_payload template name uuid uuid4 interface =
    if String.eqb interface.(type) "vlan" && negb (bool_decide (is_Some interface.(vlan)))
    then (Raise AttributeError, interface)
    else
      let interface' := match interface.(wifi) with
                        | Some w => set_ssid (fix_ssid w.(ssid)) interface
                        | None => interface
                        end in
      (Ret (template ipv4_to_int ipv6_to_byte interface'
              (derived_name interface name) (derived_uuid uuid uuid4)),
       interface').
Proof.
  unfold interface_update_payload, derived_name, derived_uuid, connection_name, VLAN.
  cbv beta iota delta [bind ret raise attr_of get modify].
  destruct (String.eqb (type interface) "vlan"); [destruct (vlan interface) as [v|]|];
    destruct (wifi interface) as [w|]; reflexivity.
Qed.

(** X14. Whenever the interface has a wifi block and the call returns a
    text, the caller's object is not what it was: the SSID it holds
    afterwards differs from the one it held. *)
Theorem interface_update_payload_changes_wifi
    (template : Template) (name uuid : option string) (uuid4 : string)
    (interface interface' : Interface) (w : WifiConfig) (text : string) :
  interface.(wifi) = Some w ->
  interface_update_payload template name uuid uuid4 interface = (Ret text, interface') ->
  interface' <> interface /\
  exists w', interface'.(wifi) = Some w' /\ w'.(ssid) <> w.(ssid).
Proof.
  intros Hw. rewrite interface_update_payload_run, Hw.
  destruct (_ && _); [discriminate|]. cbv zeta. intros [= _ <-].
  assert (Hs : wifi (set_ssid (fix_ssid (ssid w)) interface) =
               Some {| ssid := fix_ssid (ssid w); auth := auth w; psk := psk w |}).
  { unfold set_ssid. cbn [wifi]. rewrite Hw. reflexivity. }
  split.
  - intros H. rewrite H, Hw in Hs. injection Hs as Hs. destruct w as [s a p].
    injection Hs as Hs. cbn in Hs. symmetry in Hs. exact (fix_ssid_changes _ Hs).
  - eexists. split; [exact Hs|]. cbn. apply fix_ssid_changes.
Qed.



Lemma exn_eqb_neq (e e' : exn) : e <> e' -> exn_eqb e e' = false.
Proof.
  intros H. destruct e, e'; try reflexivity; try (exfalso; apply H; reflexivity).
  cbn. apply String.eqb_neq. intros ->. apply H. reflexivity.
Qed.

(** ** [backup], further *)

(** X17. An error of the BACKUP_START send that is not the channel's
    error is not caught: [backup] raises it at once, the population is not
    run, BACKUP_END is not sent and nothing is logged. *)
Theorem backup_start_error_aborts (self : HomeAssistant) (w : World) (e : exn) :
  ws_async_send_command self (events w) (WS BACKUP_START) = Raise e ->
  e <> HomeAssistantWSError ->
  exists w',
    backup self w = (Raise e, w') /\
    events w' = events w ++ [SendCommand (WS BACKUP_START)] /\
    log w' = log w /\ tar w' = tar w /\ fs w' = fs w.
Proof.
  intros Hstart Hne. open_backup. rewrite Hstart.
  cbn [existsb]. rewrite (exn_eqb_neq _ _ Hne). cbn.
  eexists. split; [reflexivity|]. cbn. repeat split; reflexivity.
Qed.

(** X18. An error of the BACKUP_END send that is not the channel's
    error is what [backup] raises, whether the population returned or
    raised: the error of the population, if any, is lost. The archive is
    as the population left it. *)
Theorem backup_end_error_wins
    (self : HomeAssistant) (w : World) (r : outcome unit) (t : list TarEntry) (e' : exn) :
  channel_outcome (ws_async_send_command self (events w) (WS BACKUP_START)) ->
  atomic_contents_add self (fs w) (origin_dir self) HOMEASSISTANT_BACKUP_EXCLUDE "."
    (tar w) = (r, t) ->
  ws_async_send_command self
    (events w ++ [SendCommand (WS BACKUP_START); RunInExecutor write_tarfile_job])
    (WS BACKUP_END) = Raise e' ->
  e' <> HomeAssistantWSError ->
  exists w',
    backup self w = (Raise e', w') /\
    events w' = events w ++ [SendCommand (WS BACKUP_START);
                             RunInExecutor write_tarfile_job;
                             SendCommand (WS BACKUP_END)] /\
    tar w' = t.
Proof.
  intros Hstart Hpop Hend Hne. open_backup.
  destruct (ws_async_send_command self (events w) (WS BACKUP_START)) as [a|e0];
    [|cbn in Hstart; subst e0]; cbn; rewrite Hpop; destruct r as [[]|e]; cbn;
    rewrite <- ?app_assoc; cbn [app]; rewrite Hend; cbn;
    rewrite (exn_eqb_neq _ _ Hne); cbn;
    (eexists; split; [reflexivity|]); cbn; rewrite <- ?app_assoc; cbn [app];
    split; reflexivity.
Qed.


(** ** [_hardware_events], further *)

(** X20. When the device matches, the version is known and not below
    ["2021.9.0"] and the answer to [get_config] lists ["usb"] among its
    components, the handler sends [get_config] and then [usb/scan], once
    each, and ends as the [usb/scan] send ends. *)
Theorem hardware_events_scans
    (self : HomeAssistant) (device : Device) (w : World) (v : string) (c : Configuration) :
  is_match_cgroup self UART device = true ->
  version self = Some v -> v <> "" ->
  version_lt self v "2021.9.0" = Ret false ->
  ws_async_send_command self (events w) (Tag "get_config") = Ret (Some c) ->
  "usb" ∈ default [] (c !! "components") ->
  _hardware_events self device w =
    (ws_send_message self (events w ++ [SendCommand (Tag "get_config")]) (Tag "usb/scan"),
     {| events := events w ++ [SendCommand (Tag "get_config"); SendMessage (Tag "usb/scan")];
        log := log w; fs := fs w; tar := tar w |}).
Proof.
  intros Hm Hv Hne Hlt Hc Husb. open_hardware_events.
  rewrite Hm, Hv. apply String.eqb_neq in Hne. rewrite Hne, Hlt. cbn. rewrite Hc.
  assert (Hc0 : bool_decide (c = ∅) = false).
  { apply bool_decide_eq_false. intros ->. rewrite lookup_empty in Husb. inversion Husb. }
  rewrite Hc0. rewrite (bool_decide_eq_true_2 _ Husb). cbn.
  unfold record_event. cbn [events log fs tar]. rewrite <- app_assoc. reflexivity.
Qed.

(** X21. The handler catches nothing: an error of the version comparison
    is raised with nothing sent, and an error of the [get_config] query is
    raised with the query as the only thing sent. *)
Theorem hardware_events_errors_propagate
    (self : HomeAssistant) (device : Device) (w : World) (v : string) (e : exn) :
  is_match_cgroup self UART device = true ->
  version self = Some v -> v <> "" ->
  (version_lt self v "2021.9.0" = Raise e ->
   _hardware_events self device w = (Raise e, w)) /\
  (version_lt self v "2021.9.0" = Ret false ->
   ws_async_send_command self (events w) (Tag "get_config") = Raise e ->
   _hardware_events self device w =
     (Raise e, {| events := events w ++ [SendCommand (Tag "get_config")];
                  log := log w; fs := fs w; tar := tar w |})).
Proof.
  intros Hm Hv Hne. open_hardware_events.
  rewrite Hm, Hv. apply String.eqb_neq in Hne. rewrite Hne. split.
  - intros ->. reflexivity.
  - intros Hlt Hc. rewrite Hlt. cbn. rewrite Hc. reflexivity.
Qed.

(** X22. When the query is made and its answer is [None], or a
    configuration that is empty, has no [components] key, or whose
    components do not hold ["usb"], the handler returns with the query as
    the only thing sent. *)
Theorem hardware_events_without_usb
    (self : HomeAssistant) (device : Device) (w : World) (v : string)
    (answer : option Configuration) :
  is_match_cgroup self UART device = true ->
  version self = Some v -> v <> "" ->
  version_lt self v "2021.9.0" = Ret false ->
  ws_async_send_command self (events w) (Tag "get_config") = Ret answer ->
  (forall c, answer = Some c -> "usb" ∉ default [] (c !! "components")) ->
  _hardware_events self device w =
    (Ret tt, {| events := events w ++ [SendCommand (Tag "get_config")];
                log := log w; fs := fs w; tar := tar w |}).
Proof.
  intros Hm Hv Hne Hlt Hc Husb. open_hardware_events.
  rewrite Hm, Hv. apply String.eqb_neq in Hne. rewrite Hne, Hlt. cbn. rewrite Hc.
  destruct answer as [c|]; [|reflexivity].
  rewrite (bool_decide_eq_false_2 _ (Husb c eq_refl)). cbn [negb].
  rewrite orb_true_r. reflexivity.
Qed.

(** ** [extractall] and [restore], further *)


Lemma inside_prefix (dir p : Path) : inside dir p = true -> exists rest, p = dir ++ rest.
Proof.
  revert p. induction dir as [|d dir IH]; intros p H.
  - exists p. reflexivity.
  - destruct p as [|c p]; [discriminate H|]. cbn in H.
    apply andb_true_iff in H as [Hd Hp]. apply String.eqb_eq in Hd. subst c.
    destruct (IH _ Hp) as [rest ->]. exists rest. reflexivity.
Qed.








(** ** The two filters of the template *)

Lemma ones_8_testbit (n : N) : N.testbit 255 n = (n <? 8)%N.
Proof.
  change 255%N with (N.ones 8). destruct (N.ltb_spec n 8) as [H|H].
  - apply N.ones_spec_low, H.
  - apply N.ones_spec_high, H.
Qed.

Lemma octet_testbit (a i n : N) :
  N.testbit (octet a i) n = (n <? 8)%N && N.testbit a (n + 8 * i).
Proof.
  unfold octet. rewrite N.land_spec, N.shiftr_spec', ones_8_testbit. apply andb_comm.
Qed.

Lemma htonl_testbit (x n : N) :
  N.testbit (htonl x) n =
    if (n <? 8)%N then N.testbit x (n + 24)
    else if (n <? 16)%N then N.testbit x (n + 8)
    else if (n <? 24)%N then N.testbit x (n - 8)
    else if (n <? 32)%N then N.testbit x (n - 24)
    else false.
Proof.
  unfold htonl. rewrite !N.lor_spec.
  destruct (N.ltb_spec n 8) as [H8|H8].
  - rewrite (N.shiftl_spec_low _ 24), (N.shiftl_spec_low _ 16), (N.shiftl_spec_low _ 8) by lia.
    rewrite octet_testbit.
    apply N.ltb_lt in H8. rewrite H8. cbn [orb andb]. f_equal.
  - destruct (N.ltb_spec n 16) as [H16|H16].
    + rewrite (N.shiftl_spec_low _ 24), (N.shiftl_spec_low _ 16) by lia.
      rewrite (N.shiftl_spec_high' _ 8) by lia. rewrite !octet_testbit.
      assert ((n - 8 <? 8)%N = true) as -> by (apply N.ltb_lt; lia).
      assert ((n <? 8)%N = false) as -> by (apply N.ltb_ge; lia).
      cbn [orb andb]. rewrite orb_false_r. f_equal. lia.
    + destruct (N.ltb_spec n 24) as [H24|H24].
      * rewrite (N.shiftl_spec_low _ 24) by lia.
        rewrite (N.shiftl_spec_high' _ 16), (N.shiftl_spec_high' _ 8) by lia.
        rewrite !octet_testbit.
        assert ((n - 16 <? 8)%N = true) as -> by (apply N.ltb_lt; lia).
        assert ((n - 8 <? 8)%N = false) as -> by (apply N.ltb_ge; lia).
        assert ((n <? 8)%N = false) as -> by (apply N.ltb_ge; lia).
        cbn [orb andb]. rewrite orb_false_r. f_equal. lia.
      * rewrite (N.shiftl_spec_high' _ 24), (N.shiftl_spec_high' _ 16),
          (N.shiftl_spec_high' _ 8) by lia.
        rewrite !octet_testbit.
        assert ((n - 16 <? 8)%N = false) as -> by (apply N.ltb_ge; lia).
        assert ((n - 8 <? 8)%N = false) as -> by (apply N.ltb_ge; lia).
        assert ((n <? 8)%N = false) as -> by (apply N.ltb_ge; lia).
        cbn [orb andb]. rewrite orb_false_r.
        destruct (N.ltb_spec n 32) as [H32|H32].
        -- assert ((n - 24 <? 8)%N = true) as -> by (apply N.ltb_lt; lia).
           cbn [andb]. rewrite ?orb_false_r. f_equal. lia.
        -- assert ((n - 24 <? 8)%N = false) as -> by (apply N.ltb_ge; lia).
           reflexivity.
Qed.

Lemma testbit_above_32 (x n : N) : (x < 2 ^ 32)%N -> (32 <= n)%N -> N.testbit x n = false.
Proof.
  intros Hx Hn. rewrite <- (N.mod_small x (2 ^ 32)) by exact Hx.
  apply N.mod_pow2_bits_high. exact Hn.
Qed.

(** X27. [ipv4_to_int] reverses the four bytes of an address: byte [i]
    of the result is byte [3 - i] of the address, the result is below
    [2^32], and applying the filter twice gives the address back. *)
Theorem ipv4_to_int_reverses_bytes (x : N) :
  (x < 2 ^ 32)%N ->
  (forall i, (i < 4)%N -> octet (ipv4_to_int x) i = octet x (3 - i)) /\
  (ipv4_to_int x < 2 ^ 32)%N /\
  ipv4_to_int (ipv4_to_int x) = x.
Proof.
  intros Hx. unfold ipv4_to_int. split; [|split].
  - intros i Hi. apply N.bits_inj. intros n. rewrite !octet_testbit.
    destruct (N.ltb_spec n 8) as [H8|H8]; [|reflexivity]. cbn [andb].
    rewrite htonl_testbit.
    assert (Hcase : i = 0%N \/ i = 1%N \/ i = 2%N \/ i = 3%N) by lia.
    destruct Hcase as [-> | [-> | [-> | ->]]].
    + assert ((n + 8 * 0 <? 8)%N = true) as -> by (apply N.ltb_lt; lia). f_equal; lia.
    + assert ((n + 8 * 1 <? 8)%N = false) as -> by (apply N.ltb_ge; lia).
      assert ((n + 8 * 1 <? 16)%N = true) as -> by (apply N.ltb_lt; lia). f_equal; lia.
    + assert ((n + 8 * 2 <? 8)%N = false) as -> by (apply N.ltb_ge; lia).
      assert ((n + 8 * 2 <? 16)%N = false) as -> by (apply N.ltb_ge; lia).
      assert ((n + 8 * 2 <? 24)%N = true) as -> by (apply N.ltb_lt; lia). f_equal; lia.
    + assert ((n + 8 * 3 <? 8)%N = false) as -> by (apply N.ltb_ge; lia).
      assert ((n + 8 * 3 <? 16)%N = false) as -> by (apply N.ltb_ge; lia).
      assert ((n + 8 * 3 <? 24)%N = false) as -> by (apply N.ltb_ge; lia).
      assert ((n + 8 * 3 <? 32)%N = true) as -> by (apply N.ltb_lt; lia). f_equal; lia.
  - destruct (N.eq_dec (htonl x) 0%N) as [E|E]; [rewrite E; reflexivity|].
    apply N.log2_lt_pow2; [lia|].
    destruct (N.lt_ge_cases (N.log2 (htonl x)) 32) as [H|H]; [exact H|exfalso].
    pose proof (N.bit_log2 (htonl x) E) as Hb. rewrite htonl_testbit in Hb.
    assert ((N.log2 (htonl x) <? 8)%N = false) as Hn8 by (apply N.ltb_ge; lia).
    assert ((N.log2 (htonl x) <? 16)%N = false) as Hn16 by (apply N.ltb_ge; lia).
    assert ((N.log2 (htonl x) <? 24)%N = false) as Hn24 by (apply N.ltb_ge; lia).
    assert ((N.log2 (htonl x) <? 32)%N = false) as Hn32 by (apply N.ltb_ge; lia).
    rewrite Hn8, Hn16, Hn24, Hn32 in Hb. discriminate Hb.
  - apply N.bits_inj. intros n. rewrite htonl_testbit.
    destruct (N.ltb_spec n 8) as [H8|H8].
    { rewrite htonl_testbit.
      assert ((n + 24 <? 8)%N = false) as -> by (apply N.ltb_ge; lia).
      assert ((n + 24 <? 16)%N = false) as -> by (apply N.ltb_ge; lia).
      assert ((n + 24 <? 24)%N = false) as -> by (apply N.ltb_ge; lia).
      assert ((n + 24 <? 32)%N = true) as -> by (apply N.ltb_lt; lia). f_equal; lia. }
    destruct (N.ltb_spec n 16) as [H16|H16].
    { rewrite htonl_testbit.
      assert ((n + 8 <? 8)%N = false) as -> by (apply N.ltb_ge; lia).
      assert ((n + 8 <? 16)%N = false) as -> by (apply N.ltb_ge; lia).
      assert ((n + 8 <? 24)%N = true) as -> by (apply N.ltb_lt; lia). f_equal; lia. }
    destruct (N.ltb_spec n 24) as [H24|H24].
    { rewrite htonl_testbit.
      assert ((n - 8 <? 8)%N = false) as -> by (apply N.ltb_ge; lia).
      assert ((n - 8 <? 16)%N = true) as -> by (apply N.ltb_lt; lia). f_equal; lia. }
    destruct (N.ltb_spec n 32) as [H32|H32].
    { rewrite htonl_testbit.
      assert ((n - 24 <? 8)%N = true) as -> by (apply N.ltb_lt; lia). f_equal; lia. }
    symmetry. apply testbit_above_32; assumption.
Qed.

Lemma list_ascii_packed (a : N) : length (list_ascii_of_string (packed a)) = 16.
Proof. unfold packed. rewrite list_ascii_of_string_of_list_ascii. reflexivity. Qed.

(** X28. The text of [ipv6_to_byte] starts with ["[byte 0x"] and is 101
    characters long for every address: sixteen bytes, each as [0x] and two
    hexadecimal digits, joined by [", "], between ["[byte "] and ["]"]. *)
Theorem ipv6_to_byte_shape (a : N) :
  String.length (ipv6_to_byte a) = 101 /\
  PyStr.startswith (ipv6_to_byte a) "[byte 0x" = true /\
  ipv6_to_byte a =
    "[byte " +:+ PyStr.join ", " (map hex_byte (list_ascii_of_string (packed a))) +:+ "]" /\
  length (list_ascii_of_string (packed a)) = 16.
Proof.
  pose proof (list_ascii_packed a) as Hlen.
  assert (Heq : ipv6_to_byte a =
    "[byte " +:+ PyStr.join ", " (map hex_byte (list_ascii_of_string (packed a))) +:+ "]")
    by reflexivity.
  destruct (list_ascii_of_string (packed a)) as [|c bytes] eqn:E; [discriminate Hlen|].
  repeat split; try exact Hlen.
  - rewrite Heq, !string_length_append, join_hex_bytes_length.
    cbn [length] in Hlen. injection Hlen as ->. reflexivity.
  - rewrite Heq. unfold PyStr.startswith.
    destruct bytes as [|b bytes].
    + cbn [map]. change (PyStr.join ", " [hex_byte c]) with (hex_byte c).
      unfold hex_byte. destruct (hex2_byte c) as (d1 & d2 & -> & _). reflexivity.
    + cbn [map]. rewrite join_cons. unfold hex_byte at 1.
      destruct (hex2_byte c) as (d1 & d2 & -> & _). reflexivity.
  - exact Heq.
Qed.

(** ** The settings *)

(** X29. Reading [image] after assigning to it gives the assigned value
    when that is true in a condition, and otherwise (for [None] and the
    empty text) the default image of the machine; it never raises, also
    when the key is not there. *)
Theorem image_after_set
    (self : Settings.Object) (value : Settings.Value) (_data : Settings.Data) :
  Settings.image self (Settings.set_image self value _data) =
    Ret (if Settings.truth value then value
         else Settings.VText ("ghcr.io/home-assistant/" +:+ Settings.sys_machine self +:+
                              "-homeassistant")) /\
  (_data !! Settings.ATTR_IMAGE self = None ->
   Settings.image self _data =
     Ret (Settings.VText ("ghcr.io/home-assistant/" +:+ Settings.sys_machine self +:+
                          "-homeassistant"))).
Proof.
  unfold Settings.image, Settings.set_image, Settings.get, Settings.item. split.
  - rewrite lookup_insert_eq. cbn [default from_option id].
    destruct (Settings.truth value); reflexivity.
  - intros ->. reflexivity.
Qed.

(** X30. [api_url] and [ws_url] go together: both raise [KeyError]
    when the port or the SSL flag is not set; otherwise they name the same
    host and port, and the websocket scheme is secure exactly when the
    API scheme is. *)
Theorem api_url_and_ws_url (self : Settings.Object) (_data : Settings.Data) :
  (forall ssl port,
     _data !! Settings.ATTR_SSL self = Some ssl ->
     _data !! Settings.ATTR_PORT self = Some port ->
     exists rest,
       Settings.api_url self _data = Ret ("http" +:+ rest) /\
       Settings.ws_url self _data = Ret ("ws" +:+ rest +:+ "/api/websocket") /\
       rest = (if Settings.truth ssl then "s" else "") +:+ "://" +:+
              str_ipv4 (Settings.ip_address self) +:+ ":" +:+ Settings.format port) /\
  (_data !! Settings.ATTR_SSL self = None \/ _data !! Settings.ATTR_PORT self = None ->
   Settings.api_url self _data = Raise Settings.KeyError /\
   Settings.ws_url self _data = Raise Settings.KeyError).
Proof.
  unfold Settings.api_url, Settings.ws_url, Settings.api_ssl, Settings.api_port,
    Settings.item. split.
  - intros ssl port -> ->. eexists. split; [|split; [|reflexivity]].
    + destruct (Settings.truth ssl); reflexivity.
    + destruct (Settings.truth ssl).
      * change ("wss" +:+ ?r) with ("ws" +:+ "s" +:+ r). rewrite !append_assoc. reflexivity.
      * change ("" +:+ ?r) with r. rewrite !append_assoc. reflexivity.
  - intros [H|H]; rewrite H; [split; reflexivity|].
    destruct (_data !! Settings.ATTR_SSL self); split; reflexivity.
Qed.

(** ** The further properties at sample inputs *)












Lemma ipv6_adressdata_skips_fe80_64_witness :
  N.shiftr (ip MoreSamples.link_local) 64 = 0xfe80000000000000%N /\
  ipv6_adressdata ([MoreSamples.global6] ++ MoreSamples.link_local :: []) [] =
    ipv6_adressdata ([MoreSamples.global6] ++ []) [].
Proof.
  split; [reflexivity|].
  apply (ipv6_adressdata_skips_fe80_64 MoreSamples.link_local [MoreSamples.global6] [] []).
  reflexivity.
Defined.

Lemma interface_update_payload_changes_wifi_witness :
  interface_update_payload Samples.ssid_template None None "fresh" Samples.wlan0 =
    (Ret "Supervisor wlan0|fresh|0x61", set_ssid "0x61" Samples.wlan0) /\
  set_ssid "0x61" Samples.wlan0 <> Samples.wlan0.
Proof.
  assert (Hrun : interface_update_payload Samples.ssid_template None None "fresh"
                   Samples.wlan0 =
                 (Ret "Supervisor wlan0|fresh|0x61", set_ssid "0x61" Samples.wlan0))
    by reflexivity.
  split; [exact Hrun|].
  exact (proj1 (interface_update_payload_changes_wifi Samples.ssid_template None None
                  "fresh" Samples.wlan0 (set_ssid "0x61" Samples.wlan0) Samples.home_wifi
                  "Supervisor wlan0|fresh|0x61" eq_refl Hrun)).
Defined.



Lemma backup_start_error_aborts_witness :
  let self := Samples.core MoreSamples.broken_channel Samples.add_one None in
  exists w',
    backup self (Samples.world ∅ []) = (Raise OSError, w') /\
    events w' = [SendCommand (WS BACKUP_START)] /\
    tar w' = [].
Proof.
  cbv zeta.
  destruct (backup_start_error_aborts
              (Samples.core MoreSamples.broken_channel Samples.add_one None)
              (Samples.world ∅ []) OSError eq_refl)
    as (w' & Hb & He & _ & Ht & _); [discriminate|].
  exists w'. split; [exact Hb|]. split; [exact He|exact Ht].
Defined.

Lemma backup_end_error_wins_witness :
  let self := Samples.core MoreSamples.breaks_at_end Samples.add_fails None in
  exists w',
    backup self (Samples.world ∅ []) = (Raise OSError, w') /\
    events w' = [SendCommand (WS BACKUP_START); RunInExecutor write_tarfile_job;
                 SendCommand (WS BACKUP_END)].
Proof.
  cbv zeta.
  destruct (backup_end_error_wins
              (Samples.core MoreSamples.breaks_at_end Samples.add_fails None)
              (Samples.world ∅ []) (Raise OSError) [] OSError I eq_refl eq_refl)
    as (w' & Hb & He & _); [discriminate|].
  exists w'. split; [exact Hb|exact He].
Defined.

Lemma hardware_events_scans_witness :
  let self := Samples.core Samples.usb_instance Samples.add_one (Some "2022.6.1") in
  _hardware_events self "/dev/ttyUSB0" (Samples.world ∅ []) =
    (Ret tt, {| events := [SendCommand (Tag "get_config"); SendMessage (Tag "usb/scan")];
                log := []; fs := ∅; tar := [] |}).
Proof.
  cbv zeta.
  apply (hardware_events_scans
           (Samples.core Samples.usb_instance Samples.add_one (Some "2022.6.1"))
           "/dev/ttyUSB0" (Samples.world ∅ []) "2022.6.1"
           {[ "components" := ["http"; "usb"] ]}
           eq_refl eq_refl).
  - discriminate.
  - reflexivity.
  - reflexivity.
  - rewrite lookup_singleton_eq. right. left.
Defined.

Lemma hardware_events_errors_propagate_witness :
  let self := Samples.core Samples.dead_channel Samples.add_one (Some "2022.6.1") in
  _hardware_events self "/dev/ttyUSB0" (Samples.world ∅ []) =
    (Raise HomeAssistantWSError,
     {| events := [SendCommand (Tag "get_config")]; log := []; fs := ∅; tar := [] |}).
Proof.
  cbv zeta.
  apply (proj2 (hardware_events_errors_propagate
                  (Samples.core Samples.dead_channel Samples.add_one (Some "2022.6.1"))
                  "/dev/ttyUSB0" (Samples.world ∅ []) "2022.6.1" HomeAssistantWSError
                  eq_refl eq_refl ltac:(discriminate))).
  - reflexivity.
  - reflexivity.
Defined.

Lemma hardware_events_without_usb_witness :
  let self := Samples.core MoreSamples.plain_instance Samples.add_one (Some "2022.6.1") in
  _hardware_events self "/dev/ttyUSB0" (Samples.world ∅ []) =
    (Ret tt,
     {| events := [SendCommand (Tag "get_config")]; log := []; fs := ∅; tar := [] |}).
Proof.
  cbv zeta.
  apply (hardware_events_without_usb
           (Samples.core MoreSamples.plain_instance Samples.add_one (Some "2022.6.1"))
           "/dev/ttyUSB0" (Samples.world ∅ []) "2022.6.1"
           (Some {[ "unit_system" := ["metric"] ]}) eq_refl eq_refl).
  - discriminate.
  - reflexivity.
  - reflexivity.
  - intros c [= <-]. rewrite lookup_singleton_ne by discriminate. intros H. inversion H.
Defined.




Lemma ipv4_to_int_reverses_bytes_witness :
  (0xc0a8010a < 2 ^ 32)%N /\
  ipv4_to_int 0xc0a8010a = 0x0a01a8c0%N /\
  ipv4_to_int (ipv4_to_int 0xc0a8010a) = 0xc0a8010a%N.
Proof.
  split; [reflexivity|]. split; [reflexivity|].
  exact (proj2 (proj2 (ipv4_to_int_reverses_bytes 0xc0a8010a eq_refl))).
Defined.

Lemma image_after_set_witness :
  Settings.image MoreSamples.settings_object MoreSamples.settings_data =
    Ret (Settings.VText "ghcr.io/home-assistant/raspberrypi4-homeassistant") /\
  Settings.image MoreSamples.settings_object
    (Settings.set_image MoreSamples.settings_object (Settings.VText "")
       MoreSamples.settings_data) =
    Ret (Settings.VText "ghcr.io/home-assistant/raspberrypi4-homeassistant").
Proof.
  split.
  - apply (proj2 (image_after_set MoreSamples.settings_object Settings.VNone
                    MoreSamples.settings_data)).
    vm_compute. reflexivity.
  - exact (proj1 (image_after_set MoreSamples.settings_object (Settings.VText "")
                    MoreSamples.settings_data)).
Defined.

Lemma api_url_and_ws_url_witness :
  Settings.api_url MoreSamples.settings_object MoreSamples.settings_data =
    Ret "http://172.30.32.1:8123" /\
  Settings.ws_url MoreSamples.settings_object MoreSamples.settings_data =
    Ret "ws://172.30.32.1:8123/api/websocket".
Proof.
  assert (Hssl : MoreSamples.settings_data !!
                   Settings.ATTR_SSL MoreSamples.settings_object =
                 Some (Settings.VBool false)) by (vm_compute; reflexivity).
  assert (Hport : MoreSamples.settings_data !!
                    Settings.ATTR_PORT MoreSamples.settings_object =
                  Some (Settings.VNum 8123)) by (vm_compute; reflexivity).
  destruct (proj1 (api_url_and_ws_url MoreSamples.settings_object
                     MoreSamples.settings_data) _ _ Hssl Hport)
    as (rest & Ha & Hw & ->).
  split; [exact Ha|exact Hw].
Defined.
